(** * Task Manager "To-do-list": the state core of [src/vscode/index.tsx]

    The [App] component keeps five [useState] cells ([todos], [inputText],
    [editingId], [editText], [filter]) and mutates them through the handlers
    [addTodo], [toggleTodo], [deleteTodo], [startEditing], [saveEdit] and
    [cancelEdit]; [getStats] and [getFilteredTodos] are recomputed on every
    render.  Each handler is embedded as a function on the record of the five
    cells; one handler call is one transition, because React applies all the
    setters of a handler in a single re-render, and the next gesture is
    handled by the closures of that new render. *)

From Stdlib Require Import String Ascii List NArith ZArith Bool Lia.
From Stdlib Require Import DecimalString.
From Stdlib Require DecimalPos DecimalZ.
Import ListNotations.

(** ** The parts of the JavaScript runtime the handlers call *)

Module JS.

(** A JavaScript string is a sequence of UTF-16 code units. *)
Definition jsstring : Type := list N.

(** A source literal, all of whose characters are ASCII. *)
Definition lit (s : string) : jsstring :=
  List.map N_of_ascii (list_ascii_of_string s).

(** [a === b] on two strings: same code units in the same order. *)
Fixpoint strict_eq (a b : jsstring) : bool :=
  match a, b with
  | [], [] => true
  | x :: a', y :: b' => N.eqb x y && strict_eq a' b'
  | _, _ => false
  end.

(** [x === s] where [x] is [null] or a string and [s] is a string. *)
Definition strict_eq_nullable (x : option jsstring) (s : jsstring) : bool :=
  match x with
  | None => false
  | Some a => strict_eq a s
  end.

(** ECMAScript WhiteSpace and LineTerminator code points, the characters
    [String.prototype.trim] strips; all of them are single code units. *)
Definition isWhiteSpace (c : N) : bool :=
  (N.eqb c 9 || N.eqb c 10 || N.eqb c 11 || N.eqb c 12 || N.eqb c 13
   || N.eqb c 32 || N.eqb c 160 || N.eqb c 5760
   || (N.leb 8192 c && N.leb c 8202)
   || N.eqb c 8232 || N.eqb c 8233 || N.eqb c 8239 || N.eqb c 8287
   || N.eqb c 12288 || N.eqb c 65279)%bool.

Fixpoint trimStart (s : jsstring) : jsstring :=
  match s with
  | [] => []
  | c :: s' => if isWhiteSpace c then trimStart s' else s
  end.

Definition trimEnd (s : jsstring) : jsstring := rev (trimStart (rev s)).

(** [s.trim()] *)
Definition trim (s : jsstring) : jsstring := trimEnd (trimStart s).

(** [n.toString()] for an integral Number below 1e21 in magnitude, which
    covers every time value [Date.now()] can return. *)
Definition Number_toString (n : Z) : jsstring :=
  lit (NilZero.string_of_int (Z.to_int n)).

End JS.


(** ** Data model *)

(** One entry of [todos]: [{ id: string, title: string, completed: boolean }]. *)
Record Todo : Type := mkTodo {
  id : JS.jsstring;
  title : JS.jsstring;
  completed : bool
}.

(** The values [filter] takes: ['all'], ['completed'] and ['uncompleted'],
    the only arguments [setFilter] is ever called with. *)
Inductive Filter : Type := All | Completed | Uncompleted.

(** The five [useState] cells of [App]. *)
Record State : Type := mkState {
  todos : list Todo;
  inputText : JS.jsstring;
  editingId : option JS.jsstring;   (* [null] is [None] *)
  editText : JS.jsstring;
  filter : Filter
}.

(** The initial values handed to [useState]. *)
Definition initialState : State :=
  {| todos :=
       [ mkTodo (JS.lit "1") (JS.lit "wash dishes") false;
         mkTodo (JS.lit "2") (JS.lit "edit-resume") false;
         mkTodo (JS.lit "3") (JS.lit "finish Codedex course") false;
         mkTodo (JS.lit "4") (JS.lit "Then sleep") false ];
     inputText := [];
     editingId := None;
     editText := [];
     filter := All |}.

(** ** The state setters *)

(** [setTodos] is always called with an updater [prevTodos => ...]. *)
Definition setTodos (f : list Todo -> list Todo) (s : State) : State :=
  {| todos := f (todos s); inputText := inputText s;
     editingId := editingId s; editText := editText s; filter := filter s |}.

Definition setInputText (v : JS.jsstring) (s : State) : State :=
  {| todos := todos s; inputText := v;
     editingId := editingId s; editText := editText s; filter := filter s |}.

Definition setEditingId (v : option JS.jsstring) (s : State) : State :=
  {| todos := todos s; inputText := inputText s;
     editingId := v; editText := editText s; filter := filter s |}.

Definition setEditText (v : JS.jsstring) (s : State) : State :=
  {| todos := todos s; inputText := inputText s;
     editingId := editingId s; editText := v; filter := filter s |}.

Definition setFilter (v : Filter) (s : State) : State :=
  {| todos := todos s; inputText := inputText s;
     editingId := editingId s; editText := editText s; filter := v |}.

(** ** Task operations

    A handler reads the cells of the render it was created in (the argument
    [s]) and queues setter calls; the result is [s] with all of them applied. *)

(** [addTodo]; [now] is the value [Date.now()] returns during the call. *)
Definition addTodo (now : Z) (s : State) : State :=
  if Nat.eqb (length (JS.trim (inputText s))) 0 then s
  else
    let newTodo :=
      {| id := JS.Number_toString now;
         title := inputText s;
         completed := false |} in
    setInputText [] (setTodos (fun prevTodos => newTodo :: prevTodos) s).

(** [{ ...todo, completed: !todo.completed }] *)
Definition flipCompleted (todo : Todo) : Todo :=
  {| id := id todo; title := title todo; completed := negb (completed todo) |}.

(** [{ ...todo, title: editText }] *)
Definition withTitle (text : JS.jsstring) (todo : Todo) : Todo :=
  {| id := id todo; title := text; completed := completed todo |}.

Definition toggleTodo (i : JS.jsstring) (s : State) : State :=
  setTodos (fun prevTodos =>
    List.map (fun todo =>
      if JS.strict_eq (id todo) i then flipCompleted todo else todo)
      prevTodos) s.

Definition deleteTodo (i : JS.jsstring) (s : State) : State :=
  let s1 :=
    setTodos (fun prevTodos =>
      List.filter (fun todo => negb (JS.strict_eq (id todo) i)) prevTodos) s in
  if JS.strict_eq_nullable (editingId s) i
  then setEditText [] (setEditingId None s1)
  else s1.

Definition startEditing (i : JS.jsstring) (t : JS.jsstring) (s : State) : State :=
  setEditText t (setEditingId (Some i) s).

Definition saveEdit (s : State) : State :=
  if Nat.eqb (length (JS.trim (editText s))) 0 then s
  else
    let s1 :=
      setTodos (fun prevTodos =>
        List.map (fun todo =>
          if JS.strict_eq_nullable (editingId s) (id todo)
          then withTitle (editText s) todo else todo)
          prevTodos) s in
    setEditText [] (setEditingId None s1).

Definition cancelEdit (s : State) : State :=
  setEditText [] (setEditingId None s).

(** ** Helper functions of the render *)

Module Stats.
(** The object [{ total, completed, uncompleted }]; lengths and their
    difference are JavaScript Numbers, here integers. *)
Record t : Type := mk { total : Z; completed : Z; uncompleted : Z }.
End Stats.

Definition getStats (s : State) : Stats.t :=
  let total := Z.of_nat (length (todos s)) in
  let completed := Z.of_nat (length (List.filter (fun t => completed t) (todos s))) in
  let uncompleted := (total - completed)%Z in
  Stats.mk total completed uncompleted.

Definition getFilteredTodos (s : State) : list Todo :=
  match filter s with
  | Completed => List.filter (fun todo => completed todo) (todos s)
  | Uncompleted => List.filter (fun todo => negb (completed todo)) (todos s)
  | _ => todos s
  end.

(** ** The gestures the rendered screen offers

    The handlers are closures of [App]; they run only when the user acts on a
    control that the current render shows.  [FlatList] renders one [TodoItem]
    per element of [getFilteredTodos]; an item whose id is [editingId] shows
    the edit field with Save and Cancel, any other item shows its checkbox and
    the Edit and Delete buttons.

    [enabled] below describes the controls of the rows of the current render.
    The rows are keyed by [item.id] ([keyExtractor]); that is the whole screen
    as long as no two tasks share an id.  Once two tasks carry one id, React
    can keep the row of a task that is gone from [todos], and its buttons
    still call the handlers with that task's id and title: such presses are
    outside [enabled], and the statements that need the restriction to
    rendered rows are made for sessions whose ids stay distinct
    ([clockedReachable]). *)

Inductive Event : Type :=
| ChangeInput (text : JS.jsstring)   (* new-task field, [onChangeText={setInputText}] *)
| PressAdd (now : Z)                 (* Add Task button, [onPress={addTodo}] *)
| PressFilter (f : Filter)           (* filter buttons, [setFilter('...')] *)
| PressCheckbox (item : Todo)        (* [toggleTodo(item.id)] *)
| PressEdit (item : Todo)            (* [startEditing(item.id, item.title)] *)
| PressDelete (item : Todo)          (* [deleteTodo(item.id)] *)
| ChangeEdit (text : JS.jsstring)    (* edit field, [onChangeText={setEditText}] *)
| PressSave                          (* Save button and [onSubmitEditing], [saveEdit] *)
| PressCancel.                       (* Cancel button, [cancelEdit] *)

Definition Todo_eqb (a b : Todo) : bool :=
  JS.strict_eq (id a) (id b) && JS.strict_eq (title a) (title b)
  && Bool.eqb (completed a) (completed b).

(** [item] is one of the elements handed to [FlatList]. *)
Definition rendered (s : State) (item : Todo) : bool :=
  existsb (Todo_eqb item) (getFilteredTodos s).

(** [editingId === item.id], the test at the top of [TodoItem]. *)
Definition inEditMode (s : State) (item : Todo) : bool :=
  JS.strict_eq_nullable (editingId s) (id item).

(** Some rendered item shows the edit field. *)
Definition editFieldShown (s : State) : bool :=
  existsb (inEditMode s) (getFilteredTodos s).

Definition enabled (s : State) (e : Event) : bool :=
  match e with
  | ChangeInput _ => true
  | PressAdd _ =>
      (* [disabled={!inputText.trim()}]: the empty string is falsy *)
      negb (Nat.eqb (length (JS.trim (inputText s))) 0)
  | PressFilter _ => true
  | PressCheckbox item | PressEdit item | PressDelete item =>
      rendered s item && negb (inEditMode s item)
  | ChangeEdit _ | PressSave | PressCancel => editFieldShown s
  end.

Definition dispatch (e : Event) (s : State) : State :=
  match e with
  | ChangeInput text => setInputText text s
  | PressAdd now => addTodo now s
  | PressFilter f => setFilter f s
  | PressCheckbox item => toggleTodo (id item) s
  | PressEdit item => startEditing (id item) (title item) s
  | PressDelete item => deleteTodo (id item) s
  | ChangeEdit text => setEditText text s
  | PressSave => saveEdit s
  | PressCancel => cancelEdit s
  end.

(** The initial state and the states the gestures of [enabled] lead to. *)
Inductive reachable : State -> Prop :=
| reachable_initial : reachable initialState
| reachable_step (s : State) (e : Event) :
    reachable s -> enabled s e = true -> reachable (dispatch e s).

(** Runs a script of gestures, stopping with [None] at the first one the
    screen does not offer. *)
Fixpoint run (es : list Event) (s : State) : option State :=
  match es with
  | [] => Some s
  | e :: es' => if enabled s e then run es' (dispatch e s) else None
  end.

(** ** State predicates *)

(** Some task of [l] carries the id [i]. *)
Definition hasId (i : JS.jsstring) (l : list Todo) : bool :=
  existsb (fun todo => JS.strict_eq (id todo) i) l.

(** The edit cells are consistent with the task list: the task being edited
    is in [todos], and outside edit mode the draft is empty. *)
Definition editConsistent (s : State) : Prop :=
  match editingId s with
  | Some i => hasId i (todos s) = true
  | None => editText s = []
  end.

(** What the claims on [getFilteredTodos] mean by "exactly the tasks that
    satisfy [p], in store order": [sel] is obtained from [l] by crossing out
    the elements that fail [p] and nothing else. *)
Inductive Selects (p : Todo -> bool) : list Todo -> list Todo -> Prop :=
| Selects_nil : Selects p [] []
| Selects_keep (x : Todo) (l sel : list Todo) :
    p x = true -> Selects p l sel -> Selects p (x :: l) (x :: sel)
| Selects_drop (x : Todo) (l sel : list Todo) :
    p x = false -> Selects p l sel -> Selects p (x :: l) sel.

(** No two tasks of the list carry the same id. *)
Definition idsUnique (s : State) : Prop := NoDup (List.map id (todos s)).

(** ** What a render shows

    The data-dependent parts of the JSX that [App] returns; styling is left
    out.  Labels such as [All ({stats.total})] are kept as the number they
    interpolate. *)

(** One [TodoItem]: the edit field (with Save and Cancel) when
    [editingId === item.id], otherwise the checkbox, the title (struck
    through when completed) and the Edit and Delete buttons. *)
Inductive Row : Type :=
| EditRow (value : JS.jsstring)
| ViewRow (checked : bool) (text : JS.jsstring).

Definition TodoItem (s : State) (item : Todo) : Row :=
  if JS.strict_eq_nullable (editingId s) (id item)
  then EditRow (editText s)
  else ViewRow (completed item) (title item).

(** The sentence under "No tasks found". *)
Definition emptyStateSubtext (f : Filter) : string :=
  match f with
  | Completed => "You haven't completed any tasks yet"
  | Uncompleted => "All tasks are completed!"
  | _ => "Add your first task above"
  end.

(** [filteredTodos.length > 0 ? <FlatList .../> : <View>...</View>] *)
Inductive Body : Type :=
| TaskList (rows : list Row)
| EmptyState (subtext : string).

Record Screen : Type := mkScreen {
  statTotal : Z;             (* card "Total" *)
  statPending : Z;           (* card "Pending" *)
  statDone : Z;              (* card "Done" *)
  activeFilter : Filter;     (* the button styled [activeFilter] *)
  labelAll : Z;              (* [All (n)] *)
  labelCompleted : Z;        (* [Completed (n)] *)
  labelUncompleted : Z;      (* [Uncompleted (n)] *)
  inputValue : JS.jsstring;  (* new-task field *)
  addDisabled : bool;        (* [disabled={!inputText.trim()}] *)
  listHeaderCount : Z;       (* [Task List (n)] *)
  body : Body;
  summaryCompleted : Z;      (* footer [Completed: n] *)
  summaryUncompleted : Z     (* footer [Uncompleted: n] *)
}.

Definition render (s : State) : Screen :=
  let stats := getStats s in
  let filteredTodos := getFilteredTodos s in
  {| statTotal := Stats.total stats;
     statPending := Stats.uncompleted stats;
     statDone := Stats.completed stats;
     activeFilter := filter s;
     labelAll := Stats.total stats;
     labelCompleted := Stats.completed stats;
     labelUncompleted := Stats.uncompleted stats;
     inputValue := inputText s;
     addDisabled := Nat.eqb (length (JS.trim (inputText s))) 0;
     listHeaderCount := Z.of_nat (length filteredTodos);
     body := if Nat.ltb 0 (length filteredTodos)
             then TaskList (List.map (TodoItem s) filteredTodos)
             else EmptyState (emptyStateSubtext (filter s));
     summaryCompleted := Stats.completed stats;
     summaryUncompleted := Stats.uncompleted stats |}.

(** The number shown in the label of the filter button [f]. *)
Definition labelOf (f : Filter) (scr : Screen) : Z :=
  match f with
  | All => labelAll scr
  | Completed => labelCompleted scr
  | Uncompleted => labelUncompleted scr
  end.

Definition isEditRow (r : Row) : bool :=
  match r with EditRow _ => true | ViewRow _ _ => false end.

(** The rows of the list, none when the empty state is shown. *)
Definition rowsOf (b : Body) : list Row :=
  match b with TaskList rows => rows | EmptyState _ => [] end.

(** ** Sessions with a strictly increasing clock

    [clockedReachable t s]: [s] is reached by gestures the screen offers, the
    values [Date.now()] returned at the Add presses were strictly increasing
    and above 4, and [t] is the last of them (4 before the first add). *)
Inductive clockedReachable : Z -> State -> Prop :=
| clocked_initial : clockedReachable 4 initialState
| clocked_add (t now : Z) (s : State) :
    clockedReachable t s -> enabled s (PressAdd now) = true -> (t < now)%Z ->
    clockedReachable now (dispatch (PressAdd now) s)
| clocked_other (t : Z) (s : State) (e : Event) :
    clockedReachable t s -> enabled s e = true ->
    (forall now, e <> PressAdd now) ->
    clockedReachable t (dispatch e s).

(** Every task id is the decimal form of an integer between 1 and [t]. *)
Definition idsBelow (t : Z) (s : State) : Prop :=
  forall todo, In todo (todos s) ->
    exists n, (0 < n <= t)%Z /\ id todo = JS.Number_toString n.

(** Every stored title has a non-empty trimmed form. *)
Definition titlesNonBlank (s : State) : Prop :=
  forall todo, In todo (todos s) -> JS.trim (title todo) <> [].

(** ** Sample sessions used to exercise the statements below *)

Definition washDishes : Todo := mkTodo (JS.lit "1") (JS.lit "wash dishes") false.
Definition editResume : Todo := mkTodo (JS.lit "2") (JS.lit "edit-resume") false.

(** Two tasks are typed and added while [Date.now()] reads the same
    millisecond. *)
Definition sameMillisecondScript : list Event :=
  [ ChangeInput (JS.lit "a"); PressAdd 1700000000000;
    ChangeInput (JS.lit "b"); PressAdd 1700000000000 ].

Definition sameMillisecondState : State :=
  dispatch (PressAdd 1700000000000)
    (dispatch (ChangeInput (JS.lit "b"))
      (dispatch (PressAdd 1700000000000)
        (dispatch (ChangeInput (JS.lit "a")) initialState))).

(** The user opens "wash dishes" for editing and replaces the draft. *)
Definition editingWith (draft : JS.jsstring) : State :=
  dispatch (ChangeEdit draft) (dispatch (PressEdit washDishes) initialState).

(** "edit-resume" is ticked and the Completed filter is selected. *)
Definition oneDoneCompletedView : State :=
  dispatch (PressFilter Completed) (dispatch (PressCheckbox editResume) initialState).

(** Every seeded task is deleted and the Uncompleted filter is selected. *)
Definition allDeletedUncompletedView : State :=
  setFilter Uncompleted
    (deleteTodo (JS.lit "4")
      (deleteTodo (JS.lit "3")
        (deleteTodo (JS.lit "2")
          (deleteTodo (JS.lit "1") initialState)))).

(** Two tasks are added at successive clock readings. *)
Definition twoAddsState : State :=
  dispatch (PressAdd 1700000000001)
    (dispatch (ChangeInput (JS.lit "b"))
      (dispatch (PressAdd 1700000000000)
        (dispatch (ChangeInput (JS.lit "a")) initialState))).


(** After the two adds of [sameMillisecondState] a Delete press on either new
    row removes both tasks, and the Edit button of the row of "b" that stays
    on screen calls [startEditing] with the id they shared. *)
Definition orphanedEditState : State :=
  startEditing (JS.lit "1700000000000") (JS.lit "b")
    (deleteTodo (JS.lit "1700000000000") sameMillisecondState).

(** In a session with distinct ids the user opens "wash dishes" and types. *)
Definition clockedEditState : State :=
  dispatch (ChangeEdit (JS.lit "draft"))
    (dispatch (PressEdit washDishes) twoAddsState).

(** ** Basic facts about the runtime functions *)

Lemma strict_eq_true_iff (a b : JS.jsstring) :
  JS.strict_eq a b = true <-> a = b.
Proof.
  revert b. induction a as [|x a IH]; intros [|y b]; simpl; split;
    try congruence; try reflexivity.
  - intros H. apply andb_true_iff in H. destruct H as [Hx Hab].
    apply N.eqb_eq in Hx. apply IH in Hab. congruence.
  - intros H. injection H as -> ->.
    rewrite N.eqb_refl. simpl. apply IH. reflexivity.
Qed.

Lemma strict_eq_refl (a : JS.jsstring) : JS.strict_eq a a = true.
Proof. apply strict_eq_true_iff. reflexivity. Qed.

Lemma strict_eq_false_iff (a b : JS.jsstring) :
  JS.strict_eq a b = false <-> a <> b.
Proof.
  destruct (JS.strict_eq a b) eqn:E.
  - apply strict_eq_true_iff in E. split; congruence.
  - split; [|reflexivity]. intros _ Hab.
    apply strict_eq_true_iff in Hab. congruence.
Qed.

Lemma strict_eq_nullable_true_iff (x : option JS.jsstring) (s : JS.jsstring) :
  JS.strict_eq_nullable x s = true <-> x = Some s.
Proof.
  destruct x as [a|]; simpl.
  - rewrite strict_eq_true_iff. split; congruence.
  - split; congruence.
Qed.

Lemma trim_blank_length (s : JS.jsstring) :
  Nat.eqb (length (JS.trim s)) 0 = true <-> JS.trim s = [].
Proof.
  rewrite Nat.eqb_eq. destruct (JS.trim s); simpl; split; congruence.
Qed.

Example trim_strips_both_ends :
  JS.trim (JS.lit "  buy milk ") = JS.lit "buy milk"
  /\ JS.trim [9; 160; 8232; 65279]%N = []
  /\ JS.trim (JS.lit "a b") = JS.lit "a b".
Proof. repeat split. Qed.

Example Number_toString_decimal :
  JS.Number_toString 1700000000000 = JS.lit "1700000000000"
  /\ JS.Number_toString 0 = JS.lit "0".
Proof. repeat split. Qed.

Lemma Todo_eqb_eq (a b : Todo) : Todo_eqb a b = true -> a = b.
Proof.
  unfold Todo_eqb. intros H.
  apply andb_true_iff in H. destruct H as [H Hc].
  apply andb_true_iff in H. destruct H as [Hi Ht].
  apply strict_eq_true_iff in Hi. apply strict_eq_true_iff in Ht.
  apply Bool.eqb_prop in Hc.
  destruct a, b; simpl in *; congruence.
Qed.

Lemma hasId_true_iff (i : JS.jsstring) (l : list Todo) :
  hasId i l = true <-> exists todo, In todo l /\ id todo = i.
Proof.
  unfold hasId. rewrite existsb_exists.
  split; intros [todo [Hin H]]; exists todo; split; auto;
    apply strict_eq_true_iff; assumption.
Qed.

Lemma getFilteredTodos_incl (s : State) (item : Todo) :
  In item (getFilteredTodos s) -> In item (todos s).
Proof.
  unfold getFilteredTodos.
  destruct (filter s); intros H; try assumption;
    apply filter_In in H; tauto.
Qed.

Lemma rendered_In (s : State) (item : Todo) :
  rendered s item = true -> In item (todos s).
Proof.
  unfold rendered. intros H. apply existsb_exists in H.
  destruct H as [x [Hin Heq]]. apply Todo_eqb_eq in Heq. subst x.
  eapply getFilteredTodos_incl; eassumption.
Qed.

Lemma Selects_filter (p : Todo -> bool) (l : list Todo) :
  Selects p l (List.filter p l).
Proof.
  induction l as [|x l IH]; simpl.
  - constructor.
  - destruct (p x) eqn:E; constructor; assumption.
Qed.

Lemma Selects_unique (p : Todo -> bool) (l sel : list Todo) :
  Selects p l sel -> sel = List.filter p l.
Proof.
  induction 1 as [|x l sel Hp _ IH|x l sel Hp _ IH]; simpl.
  - reflexivity.
  - rewrite Hp. congruence.
  - rewrite Hp. assumption.
Qed.

(** ** How the handlers act on the task list *)

Lemma State_eta (s : State) :
  {| todos := todos s; inputText := inputText s; editingId := editingId s;
     editText := editText s; filter := filter s |} = s.
Proof. destruct s; reflexivity. Qed.

Lemma flipCompleted_involutive (todo : Todo) :
  flipCompleted (flipCompleted todo) = todo.
Proof. destruct todo as [i t c]. unfold flipCompleted. simpl. rewrite negb_involutive. reflexivity. Qed.

Lemma map_unmatched (f : Todo -> Todo) (test : Todo -> bool) (l : list Todo) :
  (forall todo, In todo l -> test todo = false) ->
  List.map (fun todo => if test todo then f todo else todo) l = l.
Proof.
  induction l as [|x l IH]; simpl; intros H.
  - reflexivity.
  - rewrite (H x (or_introl eq_refl)). f_equal. apply IH.
    intros todo Hin. apply H. right. assumption.
Qed.

Lemma filter_unmatched (test : Todo -> bool) (l : list Todo) :
  (forall todo, In todo l -> test todo = false) ->
  List.filter (fun todo => negb (test todo)) l = l.
Proof.
  induction l as [|x l IH]; simpl; intros H.
  - reflexivity.
  - rewrite (H x (or_introl eq_refl)). simpl. f_equal. apply IH.
    intros todo Hin. apply H. right. assumption.
Qed.

Lemma hasId_false_iff (i : JS.jsstring) (l : list Todo) :
  hasId i l = false <-> forall todo, In todo l -> JS.strict_eq (id todo) i = false.
Proof.
  unfold hasId. induction l as [|x l IH]; simpl.
  - split; [intros _ todo []|reflexivity].
  - rewrite orb_false_iff, IH. split.
    + intros [Hx Hl] todo [<-|Hin]; auto.
    + intros H. split; [apply H; left; reflexivity|].
      intros todo Hin. apply H. right. assumption.
Qed.

Lemma toggle_ids (i : JS.jsstring) (l : list Todo) :
  List.map id
    (List.map (fun todo => if JS.strict_eq (id todo) i then flipCompleted todo else todo) l)
  = List.map id l.
Proof.
  rewrite map_map. apply map_ext. intros todo.
  destruct (JS.strict_eq (id todo) i); reflexivity.
Qed.

Lemma toggle_titles (i : JS.jsstring) (l : list Todo) :
  List.map title
    (List.map (fun todo => if JS.strict_eq (id todo) i then flipCompleted todo else todo) l)
  = List.map title l.
Proof.
  rewrite map_map. apply map_ext. intros todo.
  destruct (JS.strict_eq (id todo) i); reflexivity.
Qed.

Lemma hasId_ids (i : JS.jsstring) (l l' : list Todo) :
  List.map id l = List.map id l' -> hasId i l = hasId i l'.
Proof.
  unfold hasId. revert l'. induction l as [|x l IH]; intros [|y l']; simpl;
    try discriminate; [reflexivity|].
  intros H. injection H as Hxy Hl. rewrite Hxy. f_equal. apply IH. assumption.
Qed.

Lemma hasId_filter_other (i j : JS.jsstring) (l : list Todo) :
  i <> j ->
  hasId i (List.filter (fun todo => negb (JS.strict_eq (id todo) j)) l) = hasId i l.
Proof.
  intros Hij. unfold hasId. induction l as [|x l IH]; simpl.
  - reflexivity.
  - destruct (JS.strict_eq (id x) j) eqn:Ej; simpl.
    + apply strict_eq_true_iff in Ej.
      assert (JS.strict_eq (id x) i = false) as ->
        by (apply strict_eq_false_iff; congruence).
      simpl. assumption.
    + rewrite IH. reflexivity.
Qed.

Lemma hasId_filter_same (i : JS.jsstring) (l : list Todo) :
  hasId i (List.filter (fun todo => negb (JS.strict_eq (id todo) i)) l) = false.
Proof.
  apply hasId_false_iff. intros todo Hin.
  apply filter_In in Hin. destruct Hin as [_ H].
  apply negb_true_iff in H. assumption.
Qed.

(** ** The edit cells stay consistent *)

Lemma editConsistent_initial : editConsistent initialState.
Proof. reflexivity. Qed.

Lemma editConsistent_addTodo (now : Z) (s : State) :
  editConsistent s -> editConsistent (addTodo now s).
Proof.
  unfold addTodo, editConsistent.
  destruct (Nat.eqb _ 0); simpl; [tauto|].
  destruct (editingId s); [|tauto].
  intros H. unfold hasId in *. simpl. rewrite H. apply orb_true_r.
Qed.

Lemma editConsistent_toggleTodo (i : JS.jsstring) (s : State) :
  editConsistent s -> editConsistent (toggleTodo i s).
Proof.
  unfold toggleTodo, editConsistent. simpl.
  destruct (editingId s) as [j|]; [|tauto].
  intros H. rewrite <- H. apply hasId_ids. apply toggle_ids.
Qed.

Lemma editConsistent_deleteTodo (i : JS.jsstring) (s : State) :
  editConsistent s -> editConsistent (deleteTodo i s).
Proof.
  unfold deleteTodo, editConsistent.
  destruct (JS.strict_eq_nullable (editingId s) i) eqn:E; simpl.
  - reflexivity.
  - destruct (editingId s) as [j|]; [|tauto].
    simpl in E. apply strict_eq_false_iff in E.
    intros H. rewrite hasId_filter_other; assumption.
Qed.

Lemma editConsistent_startEditing (i t : JS.jsstring) (s : State) :
  hasId i (todos s) = true -> editConsistent (startEditing i t s).
Proof. unfold startEditing, editConsistent. simpl. tauto. Qed.

Lemma editConsistent_saveEdit (s : State) :
  editConsistent s -> editConsistent (saveEdit s).
Proof.
  unfold saveEdit. destruct (Nat.eqb _ 0); [tauto|].
  intros _. reflexivity.
Qed.

Lemma editConsistent_cancelEdit (s : State) : editConsistent (cancelEdit s).
Proof. reflexivity. Qed.

Lemma editConsistent_setEditText (text : JS.jsstring) (s : State) :
  editingId s <> None -> editConsistent s -> editConsistent (setEditText text s).
Proof.
  unfold editConsistent. simpl. destruct (editingId s); [tauto|congruence].
Qed.

Lemma editFieldShown_editing (s : State) :
  editFieldShown s = true -> editingId s <> None.
Proof.
  unfold editFieldShown, inEditMode. intros H.
  apply existsb_exists in H. destruct H as [item [_ H]].
  destruct (editingId s); [discriminate|discriminate].
Qed.

Lemma editConsistent_dispatch (s : State) (e : Event) :
  enabled s e = true -> editConsistent s -> editConsistent (dispatch e s).
Proof.
  destruct e as [text|now|f|item|item|item|text| |]; simpl; intros En Hs.
  - exact Hs.
  - apply editConsistent_addTodo; assumption.
  - exact Hs.
  - apply editConsistent_toggleTodo; assumption.
  - apply editConsistent_startEditing.
    apply andb_true_iff in En. destruct En as [Hr _].
    apply hasId_true_iff. exists item. split; [|reflexivity].
    apply rendered_In. assumption.
  - apply editConsistent_deleteTodo; assumption.
  - apply editConsistent_setEditText; [apply editFieldShown_editing|]; assumption.
  - apply editConsistent_saveEdit; assumption.
  - apply editConsistent_cancelEdit.
Qed.

Lemma reachable_editConsistent (s : State) : reachable s -> editConsistent s.
Proof.
  induction 1 as [|s e _ IH En].
  - apply editConsistent_initial.
  - apply editConsistent_dispatch; assumption.
Qed.

Lemma run_reachable (es : list Event) (s s' : State) :
  reachable s -> run es s = Some s' -> reachable s'.
Proof.
  revert s. induction es as [|e es IH]; simpl; intros s Hs Hrun.
  - injection Hrun as <-. assumption.
  - destruct (enabled s e) eqn:En; [|discriminate].
    apply (IH (dispatch e s)); [|assumption].
    apply reachable_step; assumption.
Qed.

(** ** Where distinct ids come from *)

Lemma ids_filter_NoDup (p : Todo -> bool) (l : list Todo) :
  NoDup (List.map id l) -> NoDup (List.map id (List.filter p l)).
Proof.
  induction l as [|x l IH]; simpl; intros H.
  - constructor.
  - apply NoDup_cons_iff in H. destruct H as [Hx Hl].
    destruct (p x); simpl; [|auto].
    apply NoDup_cons_iff. split; [|auto].
    intros Hin. apply Hx.
    apply in_map_iff in Hin. destruct Hin as [y [Hy Hin]].
    apply filter_In in Hin. apply in_map_iff. exists y. tauto.
Qed.

Lemma retitle_ids (test : Todo -> bool) (text : JS.jsstring) (l : list Todo) :
  List.map id (List.map (fun todo => if test todo then withTitle text todo else todo) l)
  = List.map id l.
Proof.
  rewrite map_map. apply map_ext. intros todo.
  destruct (test todo); reflexivity.
Qed.

Lemma idsUnique_addTodo (now : Z) (s : State) :
  idsUnique s ->
  ~ In (JS.Number_toString now) (List.map id (todos s)) ->
  idsUnique (addTodo now s).
Proof.
  unfold idsUnique, addTodo. intros Hs Hfresh.
  destruct (Nat.eqb _ 0); simpl; [assumption|].
  constructor; assumption.
Qed.

(** Every gesture other than an Add that reuses an id already in the list
    keeps the ids distinct. *)
Lemma idsUnique_dispatch (e : Event) (s : State) :
  idsUnique s ->
  (forall now, e = PressAdd now ->
     ~ In (JS.Number_toString now) (List.map id (todos s))) ->
  idsUnique (dispatch e s).
Proof.
  intros Hs Hfresh.
  destruct e as [text|now|f|item|item|item|text| |]; simpl; try exact Hs.
  - apply idsUnique_addTodo; [assumption|]. apply Hfresh. reflexivity.
  - unfold idsUnique, toggleTodo. simpl. rewrite toggle_ids. assumption.
  - unfold idsUnique, deleteTodo.
    destruct (JS.strict_eq_nullable (editingId s) (id item)); simpl;
      apply ids_filter_NoDup; assumption.
  - unfold idsUnique, saveEdit.
    destruct (Nat.eqb _ 0); simpl; [assumption|].
    rewrite retitle_ids. assumption.
Qed.

(** One press of a checkbox really flips the matching tasks. *)
Lemma toggleTodo_flips (i : JS.jsstring) (s : State) (n : nat) (todo : Todo) :
  nth_error (todos s) n = Some todo ->
  nth_error (todos (toggleTodo i s)) n
  = Some (if JS.strict_eq (id todo) i then flipCompleted todo else todo).
Proof.
  intros H. unfold toggleTodo. simpl.
  rewrite nth_error_map, H. reflexivity.
Qed.

Lemma Selects_In (p : Todo -> bool) (l sel : list Todo) (x : Todo) :
  Selects p l sel -> (In x sel <-> In x l /\ p x = true).
Proof.
  intros H. apply Selects_unique in H. subst sel. apply filter_In.
Qed.

(** ** Adding a task *)

(** C1. When the trimmed input text is not empty, [addTodo] puts in front of
    [todos] a new task whose title is the input text as typed (untrimmed) and
    whose [completed] flag is [false], empties [inputText] and changes nothing
    else; when the trimmed input text is empty, [addTodo] returns the state
    unchanged. *)
Theorem addTodo_spec (now : Z) (s : State) :
  (JS.trim (inputText s) <> [] ->
   addTodo now s =
     {| todos := {| id := JS.Number_toString now;
                    title := inputText s;
                    completed := false |} :: todos s;
        inputText := [];
        editingId := editingId s;
        editText := editText s;
        filter := filter s |})
  /\ (JS.trim (inputText s) = [] -> addTodo now s = s).
Proof.
  unfold addTodo. split; intros H.
  - destruct (Nat.eqb (length (JS.trim (inputText s))) 0) eqn:E.
    + apply trim_blank_length in E. contradiction.
    + reflexivity.
  - apply trim_blank_length in H. rewrite H. reflexivity.
Qed.

Lemma addTodo_spec_witness :
  JS.trim (inputText (setInputText (JS.lit " buy milk ") initialState)) <> []
  /\ addTodo 1700000000000 (setInputText (JS.lit " buy milk ") initialState)
     = {| todos := mkTodo (JS.lit "1700000000000") (JS.lit " buy milk ") false
                     :: todos initialState;
          inputText := []; editingId := None; editText := []; filter := All |}
  /\ JS.trim (inputText (setInputText (JS.lit "   ") initialState)) = []
  /\ addTodo 1700000000000 (setInputText (JS.lit "   ") initialState)
     = setInputText (JS.lit "   ") initialState.
Proof.
  assert (JS.trim (inputText (setInputText (JS.lit " buy milk ") initialState)) <> [])
    as Hfull by (vm_compute; discriminate).
  assert (JS.trim (inputText (setInputText (JS.lit "   ") initialState)) = [])
    as Hblank by reflexivity.
  split; [exact Hfull|]. split; [|split; [exact Hblank|]].
  - exact (proj1 (addTodo_spec 1700000000000
                    (setInputText (JS.lit " buy milk ") initialState)) Hfull).
  - exact (proj2 (addTodo_spec 1700000000000
                    (setInputText (JS.lit "   ") initialState)) Hblank).
Defined.

(** C10. Before any gesture the task list holds exactly four tasks, with ids
    "1", "2", "3" and "4" in this order, none of them completed, so the total
    shown starts at 4. *)
Theorem initialState_seeded :
  List.map id (todos initialState)
    = [JS.lit "1"; JS.lit "2"; JS.lit "3"; JS.lit "4"]
  /\ length (todos initialState) = 4
  /\ (forall todo, In todo (todos initialState) -> completed todo = false)
  /\ Stats.total (getStats initialState) = 4%Z
  /\ todos initialState <> [].
Proof.
  repeat split; try reflexivity.
  - intros todo Hin. simpl in Hin.
    destruct Hin as [<-|[<-|[<-|[<-|[]]]]]; reflexivity.
  - discriminate.
Qed.

(** ** Saving an edit *)





(** C4. Calling [saveEdit] while [editingId] holds a task id and the trimmed
    draft is empty saves nothing and stays in edit mode: the state is returned
    as it was, so every title is unchanged and [editingId] still holds the
    same id. *)
Theorem saveEdit_blank_draft (s : State) (i : JS.jsstring) :
  editingId s = Some i ->
  JS.trim (editText s) = [] ->
  saveEdit s = s
  /\ editingId (saveEdit s) = Some i
  /\ todos (saveEdit s) = todos s.
Proof.
  intros Hi Hblank.
  assert (saveEdit s = s) as E.
  { unfold saveEdit. rewrite Hblank. reflexivity. }
  rewrite E. auto.
Qed.

Lemma saveEdit_blank_draft_witness :
  editingId (editingWith (JS.lit "  ")) = Some (JS.lit "1")
  /\ JS.trim (editText (editingWith (JS.lit "  "))) = []
  /\ saveEdit (editingWith (JS.lit "  ")) = editingWith (JS.lit "  ")
  /\ editingId (saveEdit (editingWith (JS.lit "  "))) = Some (JS.lit "1")
  /\ todos (saveEdit (editingWith (JS.lit "  "))) = todos (editingWith (JS.lit "  ")).
Proof.
  split; [reflexivity|]. split; [reflexivity|].
  exact (@saveEdit_blank_draft (editingWith (JS.lit "  ")) (JS.lit "1")
           eq_refl eq_refl).
Defined.

(** ** Ids of added tasks *)

(** C3. The claim fails on the handler: two adds made while [Date.now()]
    returns the same millisecond give two tasks the same id.  The script is
    one the screen offers step by step, and the state it ends in has the id
    "1700000000000" twice. *)
Theorem addTodo_same_millisecond_shares_id :
  run sameMillisecondScript initialState = Some sameMillisecondState
  /\ reachable sameMillisecondState
  /\ List.map id (todos sameMillisecondState)
     = [ JS.lit "1700000000000"; JS.lit "1700000000000";
         JS.lit "1"; JS.lit "2"; JS.lit "3"; JS.lit "4" ]
  /\ List.map title (todos sameMillisecondState)
     = [ JS.lit "b"; JS.lit "a"; JS.lit "wash dishes"; JS.lit "edit-resume";
         JS.lit "finish Codedex course"; JS.lit "Then sleep" ]
  /\ ~ idsUnique sameMillisecondState.
Proof.
  assert (run sameMillisecondScript initialState = Some sameMillisecondState)
    as Hrun by reflexivity.
  split; [exact Hrun|]. split; [|split; [reflexivity|split; [reflexivity|]]].
  - exact (run_reachable sameMillisecondScript initialState _
             reachable_initial Hrun).
  - unfold idsUnique. intros H.
    change (List.map id (todos sameMillisecondState))
      with (JS.lit "1700000000000"
              :: JS.lit "1700000000000" :: List.map id (todos initialState)) in H.
    apply NoDup_cons_iff in H. destruct H as [H _].
    apply H. left. reflexivity.
Qed.

(** ** Editing and deleting *)

(** C5. The invariant fails on the program.  After the two adds in one
    millisecond of C3, both new tasks carry the id "1700000000000" and a
    Delete press on either removes both from [todos], which is the seeded
    list again; the row of "b" stays on screen, and its Edit button calls
    [startEditing] with that id.  In the state reached, [editingId] holds an
    id that no task carries. *)
Theorem orphaned_row_edit_dangles :
  reachable sameMillisecondState
  /\ todos (deleteTodo (JS.lit "1700000000000") sameMillisecondState)
     = todos initialState
  /\ todos orphanedEditState = todos initialState
  /\ editingId orphanedEditState = Some (JS.lit "1700000000000")
  /\ hasId (JS.lit "1700000000000") (todos orphanedEditState) = false
  /\ ~ editConsistent orphanedEditState.
Proof.
  split.
  { exact (run_reachable sameMillisecondScript initialState _
             reachable_initial eq_refl). }
  split; [reflexivity|]. split; [reflexivity|]. split; [reflexivity|].
  split; [reflexivity|].
  unfold editConsistent.
  change (editingId orphanedEditState) with (Some (JS.lit "1700000000000")).
  change (hasId (JS.lit "1700000000000") (todos orphanedEditState)) with false.
  discriminate.
Qed.

(** ** Toggling *)

(** C6. Pressing the checkbox of the same id twice gives back the state it
    started from, so each task has its original [completed] value; a single
    toggle leaves the ids and the titles of the list, position by position,
    as they were. *)
Theorem toggleTodo_twice (i : JS.jsstring) (s : State) :
  toggleTodo i (toggleTodo i s) = s
  /\ List.map id (todos (toggleTodo i s)) = List.map id (todos s)
  /\ List.map title (todos (toggleTodo i s)) = List.map title (todos s).
Proof.
  split; [|split].
  - unfold toggleTodo, setTodos. simpl.
    rewrite map_map.
    rewrite (map_ext _ (fun todo => todo)).
    + rewrite map_id. apply State_eta.
    + intros todo. destruct (JS.strict_eq (id todo) i) eqn:E.
      * simpl. rewrite E. apply flipCompleted_involutive.
      * rewrite E. reflexivity.
  - apply toggle_ids.
  - apply toggle_titles.
Qed.

(** ** Ids that match no task *)




(** ** Derived views *)

(** C8. In every state, reachable or not, the counters of [getStats] satisfy
    completed + uncompleted = total, where total is the number of tasks,
    completed the number of tasks whose flag is [true], and uncompleted, the
    difference of the two, the number of tasks whose flag is [false]. *)
Theorem getStats_counts (s : State) :
  (Stats.completed (getStats s) + Stats.uncompleted (getStats s)
   = Stats.total (getStats s))%Z
  /\ Stats.total (getStats s) = Z.of_nat (length (todos s))
  /\ Stats.completed (getStats s)
     = Z.of_nat (length (List.filter (fun t => completed t) (todos s)))
  /\ Stats.uncompleted (getStats s)
     = Z.of_nat (length (List.filter (fun t => negb (completed t)) (todos s))).
Proof.
  unfold getStats. simpl.
  pose proof (filter_length (fun t => completed t) (todos s)) as H.
  repeat split; lia.
Qed.

(** C9. [getFilteredTodos] is the whole list, in store order, under the All
    filter; under Completed it is the list with exactly the tasks that are
    not completed crossed out, and under Uncompleted the list with exactly
    the completed tasks crossed out, the rest staying in store order. *)
Theorem getFilteredTodos_spec (s : State) :
  (filter s = All -> getFilteredTodos s = todos s)
  /\ (filter s = Completed ->
      Selects (fun t => completed t) (todos s) (getFilteredTodos s))
  /\ (filter s = Uncompleted ->
      Selects (fun t => negb (completed t)) (todos s) (getFilteredTodos s)).
Proof.
  unfold getFilteredTodos.
  split; [|split]; intros ->; [reflexivity| |]; apply Selects_filter.
Qed.

Lemma getFilteredTodos_spec_witness :
  filter initialState = All
  /\ getFilteredTodos initialState = todos initialState
  /\ filter oneDoneCompletedView = Completed
  /\ Selects (fun t => completed t) (todos oneDoneCompletedView)
       (getFilteredTodos oneDoneCompletedView)
  /\ filter (setFilter Uncompleted oneDoneCompletedView) = Uncompleted
  /\ Selects (fun t => negb (completed t))
       (todos (setFilter Uncompleted oneDoneCompletedView))
       (getFilteredTodos (setFilter Uncompleted oneDoneCompletedView)).
Proof.
  split; [reflexivity|].
  split; [exact (proj1 (getFilteredTodos_spec initialState) eq_refl)|].
  split; [reflexivity|].
  split; [exact (proj1 (proj2 (getFilteredTodos_spec oneDoneCompletedView)) eq_refl)|].
  split; [reflexivity|].
  exact (proj2 (proj2 (getFilteredTodos_spec
                         (setFilter Uncompleted oneDoneCompletedView))) eq_refl).
Defined.

(** The spec's scenario for the filters, run on the handlers: with
    "edit-resume" ticked, the Completed view shows that task alone and the
    Uncompleted view the three others. *)
Example filtered_views_scenario :
  List.map id (getFilteredTodos oneDoneCompletedView) = [JS.lit "2"]
  /\ List.map id (getFilteredTodos (setFilter Uncompleted oneDoneCompletedView))
     = [JS.lit "1"; JS.lit "3"; JS.lit "4"]
  /\ getStats oneDoneCompletedView = Stats.mk 4 1 3.
Proof. repeat split. Qed.

(** * Further properties of the handlers and of the render *)

(** ** Blank text *)

Lemma trimStart_nil_iff (s : JS.jsstring) :
  JS.trimStart s = [] <-> forallb JS.isWhiteSpace s = true.
Proof.
  induction s as [|c s IH]; simpl.
  - tauto.
  - destruct (JS.isWhiteSpace c); simpl; [exact IH|].
    split; discriminate.
Qed.

Lemma trimStart_head (s r : JS.jsstring) (c : N) :
  JS.trimStart s = c :: r -> JS.isWhiteSpace c = false.
Proof.
  induction s as [|x s IH]; simpl; [discriminate|].
  destruct (JS.isWhiteSpace x) eqn:E; [exact IH|].
  intros H. injection H as <- _. exact E.
Qed.

Lemma forallb_rev (p : N -> bool) (l : list N) :
  forallb p (rev l) = forallb p l.
Proof.
  induction l as [|x l IH]; simpl; [reflexivity|].
  rewrite forallb_app, IH. simpl. rewrite andb_true_r. apply andb_comm.
Qed.

Lemma trim_nil_iff (s : JS.jsstring) :
  JS.trim s = [] <-> forallb JS.isWhiteSpace s = true.
Proof.
  unfold JS.trim, JS.trimEnd. split.
  - intros H.
    assert (JS.trimStart (rev (JS.trimStart s)) = []) as H1.
    { destruct (JS.trimStart (rev (JS.trimStart s))) as [|c r]; [reflexivity|].
      simpl in H. destruct (rev r); discriminate. }
    apply trimStart_nil_iff in H1. rewrite forallb_rev in H1.
    apply trimStart_nil_iff.
    destruct (JS.trimStart s) as [|c r] eqn:E; [reflexivity|].
    apply trimStart_head in E. simpl in H1. rewrite E in H1. discriminate.
  - intros H. apply trimStart_nil_iff in H. rewrite H. reflexivity.
Qed.

Lemma addTodo_grows (now : Z) (s : State) :
  JS.trim (inputText s) <> [] ->
  todos (addTodo now s)
  = mkTodo (JS.Number_toString now) (inputText s) false :: todos s.
Proof.
  intros H. unfold addTodo.
  destruct (Nat.eqb (length (JS.trim (inputText s))) 0) eqn:E.
  - apply trim_blank_length in E. contradiction.
  - reflexivity.
Qed.

Lemma cons_neq_self (x : Todo) (l : list Todo) : x :: l <> l.
Proof.
  intros H. apply (f_equal (@length Todo)) in H. simpl in H. lia.
Qed.

Lemma addTodo_noop_iff (now : Z) (s : State) :
  addTodo now s = s <-> JS.trim (inputText s) = [].
Proof.
  split.
  - intros H. destruct (JS.trim (inputText s)) as [|c r] eqn:E; [reflexivity|].
    exfalso. apply (f_equal todos) in H.
    rewrite addTodo_grows in H by (rewrite E; discriminate).
    exact (cons_neq_self _ _ H).
  - intros H. unfold addTodo. rewrite H. reflexivity.
Qed.

Lemma saveEdit_noop_iff (s : State) :
  saveEdit s = s <-> JS.trim (editText s) = [].
Proof.
  split.
  - intros H. unfold saveEdit in H.
    destruct (Nat.eqb (length (JS.trim (editText s))) 0) eqn:E.
    + apply trim_blank_length. exact E.
    + apply (f_equal editText) in H. simpl in H.
      rewrite <- H in E. discriminate.
  - intros H. unfold saveEdit. rewrite H. reflexivity.
Qed.

(** X1. [addTodo] returns the state untouched exactly when [inputText] holds
    nothing but whitespace characters (the empty text included), and
    [saveEdit] returns the state untouched exactly when [editText] does. *)
Theorem blank_text_is_whitespace_only (now : Z) (s : State) :
  (addTodo now s = s <-> forallb JS.isWhiteSpace (inputText s) = true)
  /\ (saveEdit s = s <-> forallb JS.isWhiteSpace (editText s) = true).
Proof.
  split.
  - rewrite addTodo_noop_iff. apply trim_nil_iff.
  - rewrite saveEdit_noop_iff. apply trim_nil_iff.
Qed.

(** X2. The Add Task button is rendered disabled in exactly the states in
    which [addTodo] would leave the state as it is, whatever the clock
    reads. *)
Theorem addDisabled_iff_addTodo_noop (now : Z) (s : State) :
  addDisabled (render s) = true <-> addTodo now s = s.
Proof.
  rewrite addTodo_noop_iff. simpl. apply trim_blank_length.
Qed.

(** ** Saving and cancelling an edit *)

Lemma strict_eq_sym (a b : JS.jsstring) : JS.strict_eq a b = JS.strict_eq b a.
Proof.
  destruct (JS.strict_eq b a) eqn:E.
  - apply strict_eq_true_iff. apply strict_eq_true_iff in E. congruence.
  - apply strict_eq_false_iff. apply strict_eq_false_iff in E. congruence.
Qed.

(** X3. [saveEdit] with a task in edit mode and a draft that is not blank
    stores the draft as typed (untrimmed) as the title of every task carrying
    the edited id, leaves every other task, all ids, all completed flags and
    the order alone, keeps [inputText] and [filter], and leaves edit mode with
    an empty draft. *)
Theorem saveEdit_commits (s : State) (i : JS.jsstring) :
  editingId s = Some i ->
  JS.trim (editText s) <> [] ->
  editingId (saveEdit s) = None
  /\ editText (saveEdit s) = []
  /\ inputText (saveEdit s) = inputText s
  /\ filter (saveEdit s) = filter s
  /\ List.map id (todos (saveEdit s)) = List.map id (todos s)
  /\ List.map completed (todos (saveEdit s)) = List.map completed (todos s)
  /\ (forall n todo, nth_error (todos s) n = Some todo ->
        exists saved, nth_error (todos (saveEdit s)) n = Some saved
          /\ title saved = if JS.strict_eq (id todo) i
                           then editText s else title todo).
Proof.
  intros Hi Hfull. unfold saveEdit.
  destruct (Nat.eqb (length (JS.trim (editText s))) 0) eqn:E.
  { apply trim_blank_length in E. contradiction. }
  rewrite Hi. simpl.
  repeat split.
  - apply retitle_ids.
  - rewrite map_map. apply map_ext. intros todo.
    destruct (JS.strict_eq i (id todo)); reflexivity.
  - intros n todo Hn. rewrite nth_error_map, Hn. simpl.
    eexists. split; [reflexivity|].
    rewrite (strict_eq_sym (id todo) i).
    destruct (JS.strict_eq i (id todo)); reflexivity.
Qed.

Lemma saveEdit_commits_witness :
  editingId (editingWith (JS.lit " wash the dishes ")) = Some (JS.lit "1")
  /\ JS.trim (editText (editingWith (JS.lit " wash the dishes "))) <> []
  /\ editingId (saveEdit (editingWith (JS.lit " wash the dishes "))) = None
  /\ List.map title (todos (saveEdit (editingWith (JS.lit " wash the dishes "))))
     = [ JS.lit " wash the dishes "; JS.lit "edit-resume";
         JS.lit "finish Codedex course"; JS.lit "Then sleep" ].
Proof.
  assert (JS.trim (editText (editingWith (JS.lit " wash the dishes "))) <> [])
    as Hfull by (vm_compute; discriminate).
  split; [reflexivity|]. split; [exact Hfull|].
  split; [|reflexivity].
  exact (proj1 (saveEdit_commits (editingWith (JS.lit " wash the dishes "))
                  (JS.lit "1") eq_refl Hfull)).
Defined.

(** X4. From a state that is not in edit mode and whose draft is empty,
    opening a task for editing, typing any draft and pressing Cancel gives
    back exactly that state. *)
Theorem edit_then_cancel_restores (s : State) (i t draft : JS.jsstring) :
  editingId s = None ->
  editText s = [] ->
  cancelEdit (setEditText draft (startEditing i t s)) = s.
Proof.
  intros Hnone Hempty.
  unfold cancelEdit, setEditText, setEditingId, startEditing. simpl.
  rewrite <- Hempty, <- Hnone. apply State_eta.
Qed.

Lemma edit_then_cancel_restores_witness :
  editingId oneDoneCompletedView = None
  /\ editText oneDoneCompletedView = []
  /\ cancelEdit (setEditText (JS.lit "draft")
       (startEditing (JS.lit "2") (JS.lit "edit-resume") oneDoneCompletedView))
     = oneDoneCompletedView.
Proof.
  split; [reflexivity|]. split; [reflexivity|].
  exact (edit_then_cancel_restores oneDoneCompletedView (JS.lit "2")
           (JS.lit "edit-resume") (JS.lit "draft") eq_refl eq_refl).
Defined.

(** ** Adding, deleting and toggling, seen through the counters and the list *)

(** X5. An accepted add raises Total and Pending by one and leaves Done; the
    new task becomes the first visible task under the All and Uncompleted
    filters, and under the Completed filter the visible list does not
    change. *)
Theorem addTodo_counts_and_view (now : Z) (s : State) :
  JS.trim (inputText s) <> [] ->
  Stats.total (getStats (addTodo now s)) = (Stats.total (getStats s) + 1)%Z
  /\ Stats.uncompleted (getStats (addTodo now s))
     = (Stats.uncompleted (getStats s) + 1)%Z
  /\ Stats.completed (getStats (addTodo now s)) = Stats.completed (getStats s)
  /\ getFilteredTodos (addTodo now s)
     = match filter s with
       | Completed => getFilteredTodos s
       | _ => mkTodo (JS.Number_toString now) (inputText s) false
                :: getFilteredTodos s
       end.
Proof.
  intros Hfull.
  assert (filter (addTodo now s) = filter s) as Hf.
  { unfold addTodo. destruct (Nat.eqb _ 0); reflexivity. }
  pose proof (addTodo_grows now s Hfull) as Ht.
  unfold getStats, getFilteredTodos. rewrite Hf, Ht.
  cbn [Stats.total Stats.completed Stats.uncompleted List.filter completed length].
  split; [lia|]. split; [lia|]. split; [reflexivity|].
  destruct (filter s); reflexivity.
Qed.

Lemma addTodo_counts_and_view_witness :
  JS.trim (inputText (dispatch (ChangeInput (JS.lit "call mum")) oneDoneCompletedView))
    <> []
  /\ Stats.total (getStats (addTodo 1700000000000
       (dispatch (ChangeInput (JS.lit "call mum")) oneDoneCompletedView))) = 5%Z
  /\ List.map id (getFilteredTodos (addTodo 1700000000000
       (dispatch (ChangeInput (JS.lit "call mum")) oneDoneCompletedView)))
     = [JS.lit "2"].
Proof.
  assert (JS.trim (inputText
            (dispatch (ChangeInput (JS.lit "call mum")) oneDoneCompletedView)) <> [])
    as Hfull by (vm_compute; discriminate).
  destruct (addTodo_counts_and_view 1700000000000
              (dispatch (ChangeInput (JS.lit "call mum")) oneDoneCompletedView)
              Hfull) as [Htotal [_ [_ Hview]]].
  split; [exact Hfull|]. split.
  - rewrite Htotal. reflexivity.
  - rewrite Hview. reflexivity.
Defined.

Lemma filter_unique_id_length (i : JS.jsstring) (l : list Todo) :
  NoDup (List.map id l) ->
  hasId i l = true ->
  S (length (List.filter (fun todo => negb (JS.strict_eq (id todo) i)) l))
  = length l.
Proof.
  induction l as [|x l IH]; simpl; intros Hnd Hhas; [discriminate|].
  apply NoDup_cons_iff in Hnd. destruct Hnd as [Hx Hl].
  destruct (JS.strict_eq (id x) i) eqn:E; simpl.
  - apply strict_eq_true_iff in E. subst i.
    rewrite filter_unmatched; [reflexivity|].
    intros todo Hin. apply strict_eq_false_iff. intros Heq.
    apply Hx. rewrite <- Heq. apply in_map. exact Hin.
  - f_equal. apply IH; assumption.
Qed.

Lemma deleteTodo_todos (i : JS.jsstring) (s : State) :
  todos (deleteTodo i s)
  = List.filter (fun todo => negb (JS.strict_eq (id todo) i)) (todos s).
Proof.
  unfold deleteTodo. destruct (JS.strict_eq_nullable (editingId s) i); reflexivity.
Qed.

(** X6. While ids are distinct, deleting the id of a task in the list removes
    exactly that one task: Total drops by one, the tasks left are exactly
    those with another id, in their old order, and the deleted id shows under
    no filter afterwards. *)
Theorem deleteTodo_removes_one (i : JS.jsstring) (s : State) :
  idsUnique s ->
  hasId i (todos s) = true ->
  Stats.total (getStats (deleteTodo i s)) = (Stats.total (getStats s) - 1)%Z
  /\ Selects (fun todo => negb (JS.strict_eq (id todo) i))
       (todos s) (todos (deleteTodo i s))
  /\ (forall f, hasId i (getFilteredTodos (setFilter f (deleteTodo i s))) = false).
Proof.
  intros Hu Hhas. split; [|split].
  - unfold getStats. simpl. rewrite deleteTodo_todos.
    pose proof (filter_unique_id_length i (todos s) Hu Hhas). lia.
  - rewrite deleteTodo_todos. apply Selects_filter.
  - intros f. apply hasId_false_iff. intros todo Hin.
    apply getFilteredTodos_incl in Hin. simpl in Hin.
    rewrite deleteTodo_todos in Hin. apply filter_In in Hin.
    destruct Hin as [_ H]. apply negb_true_iff in H. exact H.
Qed.

Lemma idsUnique_initial : idsUnique initialState.
Proof.
  unfold idsUnique. vm_compute.
  repeat apply NoDup_cons; try apply NoDup_nil; simpl; intuition discriminate.
Qed.

Lemma deleteTodo_removes_one_witness :
  idsUnique initialState
  /\ hasId (JS.lit "3") (todos initialState) = true
  /\ Stats.total (getStats (deleteTodo (JS.lit "3") initialState)) = 3%Z
  /\ List.map id (todos (deleteTodo (JS.lit "3") initialState))
     = [JS.lit "1"; JS.lit "2"; JS.lit "4"].
Proof.
  split; [exact idsUnique_initial|]. split; [reflexivity|]. split; [|reflexivity].
  rewrite (proj1 (deleteTodo_removes_one (JS.lit "3") initialState
                    idsUnique_initial eq_refl)).
  reflexivity.
Defined.

Lemma toggle_unique_count (i : JS.jsstring) (l : list Todo) (todo : Todo) :
  NoDup (List.map id l) ->
  In todo l ->
  id todo = i ->
  length (List.filter (fun t => completed t)
            (List.map (fun t => if JS.strict_eq (id t) i
                                then flipCompleted t else t) l))
  + (if completed todo then 1 else 0)
  = length (List.filter (fun t => completed t) l)
    + (if completed todo then 0 else 1).
Proof.
  induction l as [|x l IH]; simpl; intros Hnd Hin Hid; [contradiction|].
  apply NoDup_cons_iff in Hnd. destruct Hnd as [Hx Hl].
  destruct (JS.strict_eq (id x) i) eqn:E.
  - apply strict_eq_true_iff in E.
    assert (todo = x) as ->.
    { destruct Hin as [Hin|Hin]; [congruence|].
      exfalso. apply Hx. rewrite E, <- Hid. apply in_map. exact Hin. }
    rewrite map_unmatched.
    + simpl. destruct (completed x); simpl; lia.
    + intros t Ht. apply strict_eq_false_iff. intros Heq.
      apply Hx. rewrite E, <- Heq. apply in_map. exact Ht.
  - assert (In todo l) as Hin'.
    { destruct Hin as [Hin|Hin]; [|exact Hin].
      subst x. apply strict_eq_false_iff in E. congruence. }
    specialize (IH Hl Hin' Hid).
    destruct (completed x); simpl; lia.
Qed.

(** X7. While ids are distinct, ticking the checkbox of a task in the list
    moves exactly one task between Pending and Done: Done goes up by one and
    Pending down by one if the task was not completed, the other way round
    if it was, and Total stays. *)
Theorem toggleTodo_moves_one (s : State) (todo : Todo) :
  idsUnique s ->
  In todo (todos s) ->
  Stats.total (getStats (toggleTodo (id todo) s)) = Stats.total (getStats s)
  /\ Stats.completed (getStats (toggleTodo (id todo) s))
     = (Stats.completed (getStats s) + if completed todo then -1 else 1)%Z
  /\ Stats.uncompleted (getStats (toggleTodo (id todo) s))
     = (Stats.uncompleted (getStats s) - if completed todo then -1 else 1)%Z.
Proof.
  intros Hu Hin.
  pose proof (toggle_unique_count (id todo) (todos s) todo Hu Hin eq_refl) as Hc.
  unfold getStats, toggleTodo, setTodos.
  cbn [Stats.total Stats.completed Stats.uncompleted todos].
  rewrite length_map.
  destruct (completed todo); (split; [reflexivity|split; lia]).
Qed.

Lemma toggleTodo_moves_one_witness :
  idsUnique initialState
  /\ In editResume (todos initialState)
  /\ getStats (toggleTodo (id editResume) initialState) = Stats.mk 4 1 3.
Proof.
  assert (In editResume (todos initialState)) as Hin
    by (right; left; reflexivity).
  destruct (toggleTodo_moves_one initialState editResume idsUnique_initial Hin)
    as [Ht [Hc Hp]].
  split; [exact idsUnique_initial|]. split; [exact Hin|].
  destruct (getStats (toggleTodo (id editResume) initialState)) as [t c u].
  simpl in Ht, Hc, Hp. rewrite Ht, Hc, Hp. reflexivity.
Defined.

(** ** The header count, the rows and the empty state *)

Lemma filter_nil_iff (p : Todo -> bool) (l : list Todo) :
  List.filter p l = [] <-> forall x, In x l -> p x = false.
Proof.
  induction l as [|x l IH]; simpl.
  - split; [intros _ y []|reflexivity].
  - destruct (p x) eqn:E.
    + split; [discriminate|]. intros H.
      rewrite (H x (or_introl eq_refl)) in E. discriminate.
    + rewrite IH. split.
      * intros H y [<-|Hy]; auto.
      * intros H y Hy. apply H. right. exact Hy.
Qed.

(** X8. On every render the number in the "Task List (n)" header, the number
    of rows drawn and the number in the label of the active filter button
    agree. *)
Theorem listHeaderCount_matches_label (s : State) :
  listHeaderCount (render s) = labelOf (activeFilter (render s)) (render s)
  /\ Z.of_nat (length (rowsOf (body (render s)))) = listHeaderCount (render s).
Proof.
  split.
  - unfold render, labelOf, getStats, getFilteredTodos.
    cbn [activeFilter labelAll labelCompleted labelUncompleted listHeaderCount
         Stats.total Stats.completed Stats.uncompleted].
    pose proof (filter_length (fun t => completed t) (todos s)) as H.
    destruct (filter s); lia.
  - unfold render. cbn [body listHeaderCount].
    destruct (getFilteredTodos s) as [|x l]; [reflexivity|].
    cbn [length Nat.ltb Nat.leb rowsOf]. rewrite length_map. reflexivity.
Qed.

(** X9. The list is replaced by the "No tasks found" block exactly when no
    task passes the filter: under All when there is no task at all, under
    Completed when no task is completed, and under Uncompleted when every
    task is completed, which includes the case of an empty list ("All tasks
    are completed!" is then shown with no task). *)
Theorem emptyState_shown_iff (s : State) :
  (filter s = All ->
     (body (render s) = EmptyState "Add your first task above"
      <-> todos s = []))
  /\ (filter s = Completed ->
     (body (render s) = EmptyState "You haven't completed any tasks yet"
      <-> forall todo, In todo (todos s) -> completed todo = false))
  /\ (filter s = Uncompleted ->
     (body (render s) = EmptyState "All tasks are completed!"
      <-> forall todo, In todo (todos s) -> completed todo = true)).
Proof.
  assert (forall txt, body (render s) = EmptyState txt
                      <-> getFilteredTodos s = [] /\ txt = emptyStateSubtext (filter s))
    as Hbody.
  { intros txt. unfold render. cbn [body].
    destruct (getFilteredTodos s) as [|x l]; cbn [length Nat.ltb Nat.leb].
    - split; [intros H; injection H as <-; auto|intros [_ ->]; reflexivity].
    - split; [discriminate|intros [H _]; discriminate]. }
  split; [|split]; intros Hf; rewrite Hbody; unfold getFilteredTodos;
    rewrite Hf; cbn [emptyStateSubtext].
  - tauto.
  - rewrite filter_nil_iff. tauto.
  - rewrite filter_nil_iff. split.
    + intros [H _] todo Hin. apply negb_false_iff. apply H. exact Hin.
    + intros H. split; [|reflexivity].
      intros todo Hin. apply negb_false_iff. apply H. exact Hin.
Qed.

Lemma emptyState_shown_iff_witness :
  filter allDeletedUncompletedView = Uncompleted
  /\ body (render allDeletedUncompletedView)
     = EmptyState "All tasks are completed!"
  /\ filter oneDoneCompletedView = Completed
  /\ body (render oneDoneCompletedView)
     <> EmptyState "You haven't completed any tasks yet".
Proof.
  split; [reflexivity|]. split; [|split; [reflexivity|]].
  - apply (proj2 (proj2 (emptyState_shown_iff
             allDeletedUncompletedView)) eq_refl).
    intros todo [].
  - intros H.
    pose proof (proj1 (proj1 (proj2 (emptyState_shown_iff oneDoneCompletedView))
                         eq_refl) H
                  (flipCompleted editResume) (or_intror (or_introl eq_refl))) as H'.
    discriminate H'.
Defined.

(** X10. While ids are distinct, at most one row of the list is drawn in
    edit mode. *)
Theorem at_most_one_edit_row (s : State) :
  idsUnique s ->
  length (List.filter isEditRow (rowsOf (body (render s)))) <= 1.
Proof.
  intros Hu.
  assert (forall l, NoDup (List.map id l) ->
            length (List.filter isEditRow (List.map (TodoItem s) l)) <= 1) as H.
  { induction l as [|x l IH]; simpl; intros Hnd; [lia|].
    apply NoDup_cons_iff in Hnd. destruct Hnd as [Hx Hl].
    unfold TodoItem at 1.
    destruct (JS.strict_eq_nullable (editingId s) (id x)) eqn:E; simpl; [|auto].
    apply strict_eq_nullable_true_iff in E.
    assert (List.filter isEditRow (List.map (TodoItem s) l) = []) as ->; [|simpl; lia].
    clear IH. induction l as [|y l IH]; simpl; [reflexivity|].
    unfold TodoItem at 1.
    destruct (JS.strict_eq_nullable (editingId s) (id y)) eqn:Ey.
    - exfalso. apply strict_eq_nullable_true_iff in Ey.
      apply Hx. left. congruence.
    - simpl. apply IH.
      + intros Hin. apply Hx. right. exact Hin.
      + apply NoDup_cons_iff in Hl. tauto. }
  unfold render. cbn [body].
  destruct (Nat.ltb 0 (length (getFilteredTodos s))); cbn [rowsOf]; [|simpl; lia].
  apply H. unfold getFilteredTodos.
  destruct (filter s); try apply ids_filter_NoDup; exact Hu.
Qed.

Lemma at_most_one_edit_row_witness :
  idsUnique (editingWith (JS.lit "draft"))
  /\ List.map isEditRow (rowsOf (body (render (editingWith (JS.lit "draft")))))
     = [true; false; false; false]
  /\ length (List.filter isEditRow
               (rowsOf (body (render (editingWith (JS.lit "draft")))))) <= 1.
Proof.
  split; [exact idsUnique_initial|]. split; [reflexivity|].
  exact (at_most_one_edit_row (editingWith (JS.lit "draft")) idsUnique_initial).
Defined.

(** ** Invariants of a session *)

Lemma titlesNonBlank_dispatch (e : Event) (s : State) :
  titlesNonBlank s -> titlesNonBlank (dispatch e s).
Proof.
  unfold titlesNonBlank. intros Hs.
  destruct e as [text|now|f|item|item|item|text| |]; simpl; try exact Hs.
  - unfold addTodo.
    destruct (Nat.eqb (length (JS.trim (inputText s))) 0) eqn:E; [exact Hs|].
    simpl. intros todo [<-|Hin]; [|auto].
    simpl. intros H. rewrite H in E. discriminate.
  - intros todo Hin. unfold toggleTodo in Hin. simpl in Hin.
    apply in_map_iff in Hin. destruct Hin as [x [<- Hx]].
    destruct (JS.strict_eq (id x) (id item)); simpl; auto.
  - intros todo Hin. rewrite deleteTodo_todos in Hin.
    apply filter_In in Hin. apply Hs. tauto.
  - unfold saveEdit.
    destruct (Nat.eqb (length (JS.trim (editText s))) 0) eqn:E; [exact Hs|].
    simpl. intros todo Hin.
    apply in_map_iff in Hin. destruct Hin as [x [<- Hx]].
    destruct (JS.strict_eq_nullable (editingId s) (id x)); simpl; [|auto].
    intros H. rewrite H in E. discriminate.
Qed.

Lemma titlesNonBlank_initial : titlesNonBlank initialState.
Proof.
  intros todo Hin. simpl in Hin.
  destruct Hin as [<-|[<-|[<-|[<-|[]]]]]; vm_compute; discriminate.
Qed.

(** X11. In every reachable state every stored title has a non-empty trimmed
    form: the seeded titles do, [addTodo] and [saveEdit] refuse blank text,
    and no other handler writes a title. *)
Theorem stored_titles_never_blank (s : State) :
  reachable s -> titlesNonBlank s.
Proof.
  induction 1 as [|s e _ IH _].
  - exact titlesNonBlank_initial.
  - apply titlesNonBlank_dispatch. exact IH.
Qed.

Lemma stored_titles_never_blank_witness :
  reachable sameMillisecondState /\ titlesNonBlank sameMillisecondState.
Proof.
  assert (reachable sameMillisecondState) as Hr.
  { exact (run_reachable sameMillisecondScript initialState _
             reachable_initial eq_refl). }
  split; [exact Hr|].
  exact (stored_titles_never_blank sameMillisecondState Hr).
Defined.

(** [Date.now().toString()] maps different integers to different strings. *)
Lemma lit_inj (a b : string) : JS.lit a = JS.lit b -> a = b.
Proof.
  unfold JS.lit. intros H.
  rewrite <- (string_of_list_ascii_of_string a),
          <- (string_of_list_ascii_of_string b).
  f_equal.
  revert H. generalize (list_ascii_of_string a) (list_ascii_of_string b).
  induction l as [|x l IH]; intros [|y l']; simpl; try discriminate; [reflexivity|].
  intros H. injection H as Hxy Hl. f_equal; [|apply IH; exact Hl].
  rewrite <- (ascii_N_embedding x), <- (ascii_N_embedding y), Hxy. reflexivity.
Qed.

Lemma to_int_not_nil (n : Z) :
  Z.to_int n <> Decimal.Pos Decimal.Nil /\ Z.to_int n <> Decimal.Neg Decimal.Nil.
Proof.
  destruct n as [|p|p]; simpl; split; try discriminate;
    intros H; injection H as H;
    exact (DecimalPos.Unsigned.to_uint_nonnil p H).
Qed.

Lemma Number_toString_inj (n m : Z) :
  JS.Number_toString n = JS.Number_toString m -> n = m.
Proof.
  unfold JS.Number_toString. intros H. apply lit_inj in H.
  apply DecimalZ.to_int_inj.
  destruct (to_int_not_nil n) as [Hn1 Hn2].
  destruct (to_int_not_nil m) as [Hm1 Hm2].
  pose proof (NilZero.isi (Z.to_int n) Hn1 Hn2) as En.
  pose proof (NilZero.isi (Z.to_int m) Hm1 Hm2) as Em.
  rewrite H in En. rewrite En in Em. injection Em as Em. exact Em.
Qed.

Lemma dispatch_ids_incl (e : Event) (s : State) :
  (forall now, e <> PressAdd now) ->
  forall todo, In todo (todos (dispatch e s)) ->
    exists old, In old (todos s) /\ id old = id todo.
Proof.
  intros Hne todo.
  destruct e as [text|now|f|item|item|item|text| |]; simpl;
    try (intros Hin; exists todo; split; [exact Hin|reflexivity]).
  - exfalso. exact (Hne now eq_refl).
  - intros Hin. apply in_map_iff in Hin. destruct Hin as [x [<- Hx]].
    exists x. split; [exact Hx|].
    destruct (JS.strict_eq (id x) (id item)); reflexivity.
  - intros Hin. rewrite deleteTodo_todos in Hin. apply filter_In in Hin.
    exists todo. split; [tauto|reflexivity].
  - unfold saveEdit.
    destruct (Nat.eqb (length (JS.trim (editText s))) 0);
      [intros Hin; exists todo; split; [exact Hin|reflexivity]|].
    simpl. intros Hin. apply in_map_iff in Hin. destruct Hin as [x [<- Hx]].
    exists x. split; [exact Hx|].
    destruct (JS.strict_eq_nullable (editingId s) (id x)); reflexivity.
Qed.

Lemma clocked_invariant (t : Z) (s : State) :
  clockedReachable t s -> (4 <= t)%Z /\ idsBelow t s /\ idsUnique s.
Proof.
  induction 1 as [|t now s _ [Ht [Hb Hu]] En Hlt|t s e _ [Ht [Hb Hu]] En Hne].
  - split; [lia|]. split; [|exact idsUnique_initial].
    intros todo Hin. simpl in Hin.
    destruct Hin as [<-|[<-|[<-|[<-|[]]]]];
      [exists 1%Z|exists 2%Z|exists 3%Z|exists 4%Z]; split; try lia; reflexivity.
  - assert (~ In (JS.Number_toString now) (List.map id (todos s))) as Hfresh.
    { intros Hin. apply in_map_iff in Hin. destruct Hin as [x [Hx Hin]].
      destruct (Hb x Hin) as [n [Hn Hid]].
      rewrite Hid in Hx. apply Number_toString_inj in Hx. lia. }
    split; [lia|]. split.
    + simpl. unfold addTodo.
      destruct (Nat.eqb (length (JS.trim (inputText s))) 0).
      * intros todo Hin. destruct (Hb todo Hin) as [n [Hn Hid]].
        exists n. split; [lia|exact Hid].
      * simpl. intros todo [<-|Hin].
        -- exists now. split; [lia|reflexivity].
        -- destruct (Hb todo Hin) as [n [Hn Hid]].
           exists n. split; [lia|exact Hid].
    + simpl. apply idsUnique_addTodo; assumption.
  - split; [exact Ht|]. split.
    + intros todo Hin.
      destruct (dispatch_ids_incl e s Hne todo Hin) as [old [Hold Hid]].
      destruct (Hb old Hold) as [n [Hn Hn']].
      exists n. split; [exact Hn|congruence].
    + apply idsUnique_dispatch; [exact Hu|].
      intros now Heq. exfalso. exact (Hne now Heq).
Qed.

(** X12. If the clock reads strictly more at every Add press than at the one
    before, and more than 4 at the first, then no two tasks ever share an
    id: timestamp ids only collide when a reading repeats or runs back. *)
Theorem increasing_clock_keeps_ids_unique (t : Z) (s : State) :
  clockedReachable t s -> idsUnique s.
Proof.
  intros H. apply (clocked_invariant t s H).
Qed.

Lemma increasing_clock_keeps_ids_unique_witness :
  clockedReachable 1700000000001 twoAddsState /\ idsUnique twoAddsState.
Proof.
  assert (clockedReachable 1700000000001 twoAddsState) as Hc.
  { unfold twoAddsState.
    apply clocked_add with (t := 1700000000000%Z); [|reflexivity|lia].
    apply clocked_other; [|reflexivity|discriminate].
    apply clocked_add with (t := 4%Z); [|reflexivity|lia].
    apply clocked_other; [|reflexivity|discriminate].
    apply clocked_initial. }
  split; [exact Hc|].
  exact (increasing_clock_keeps_ids_unique 1700000000001 twoAddsState Hc).
Defined.

(** ** Round trips and commuting gestures *)

Lemma unique_id_same_task (l : list Todo) (a b : Todo) :
  NoDup (List.map id l) -> In a l -> In b l -> id a = id b -> a = b.
Proof.
  induction l as [|x l IH]; simpl; intros Hnd Ha Hb Hid; [contradiction|].
  apply NoDup_cons_iff in Hnd. destruct Hnd as [Hx Hl].
  destruct Ha as [->|Ha], Hb as [->|Hb]; auto.
  - exfalso. apply Hx. rewrite Hid. apply in_map. exact Hb.
  - exfalso. apply Hx. rewrite <- Hid. apply in_map. exact Ha.
Qed.

(** X13. While ids are distinct, pressing Edit on a task of the list and then
    Save without typing changes no task and ends as Cancel would: the list,
    [inputText] and [filter] are as before and edit mode is left. *)
Theorem edit_then_save_unchanged (s : State) (item : Todo) :
  idsUnique s ->
  In item (todos s) ->
  JS.trim (title item) <> [] ->
  saveEdit (startEditing (id item) (title item) s) = cancelEdit s.
Proof.
  intros Hu Hin Hfull. unfold saveEdit, startEditing.
  cbn [editText editingId setEditText setEditingId].
  destruct (Nat.eqb (length (JS.trim (title item))) 0) eqn:E.
  { apply trim_blank_length in E. contradiction. }
  unfold cancelEdit, setEditText, setEditingId, setTodos.
  cbn [todos inputText editingId editText filter].
  f_equal.
  rewrite <- (map_id (todos s)) at 2.
  apply map_ext_in. intros todo Ht.
  destruct (JS.strict_eq_nullable (Some (id item)) (id todo)) eqn:Ei; [|reflexivity].
  apply strict_eq_nullable_true_iff in Ei. injection Ei as Ei.
  rewrite (unique_id_same_task (todos s) item todo Hu Hin Ht Ei).
  destruct todo; reflexivity.
Qed.

Lemma edit_then_save_unchanged_witness :
  idsUnique initialState
  /\ In washDishes (todos initialState)
  /\ JS.trim (title washDishes) <> []
  /\ saveEdit (dispatch (PressEdit washDishes) initialState) = initialState.
Proof.
  assert (In washDishes (todos initialState)) as Hin by (left; reflexivity).
  assert (JS.trim (title washDishes) <> []) as Hfull by (vm_compute; discriminate).
  split; [exact idsUnique_initial|]. split; [exact Hin|]. split; [exact Hfull|].
  exact (edit_then_save_unchanged initialState washDishes
           idsUnique_initial Hin Hfull).
Defined.

(** X14. In a state whose [editingId] is not the new id, adding a task under
    an id no task carries and then deleting that id gives back the state
    before the add, except that [inputText] is now empty. *)
Theorem add_then_delete_restores (now : Z) (s : State) :
  JS.trim (inputText s) <> [] ->
  hasId (JS.Number_toString now) (todos s) = false ->
  editingId s <> Some (JS.Number_toString now) ->
  deleteTodo (JS.Number_toString now) (addTodo now s) = setInputText [] s.
Proof.
  intros Hfull Hfresh Hedit.
  pose proof (proj1 (hasId_false_iff _ _) Hfresh) as Hno.
  assert (JS.strict_eq_nullable (editingId s) (JS.Number_toString now) = false) as Ee.
  { destruct (JS.strict_eq_nullable (editingId s) (JS.Number_toString now)) eqn:E;
      [|reflexivity].
    apply strict_eq_nullable_true_iff in E. contradiction. }
  unfold addTodo.
  destruct (Nat.eqb (length (JS.trim (inputText s))) 0) eqn:E.
  { apply trim_blank_length in E. contradiction. }
  unfold deleteTodo, setInputText, setTodos.
  cbn [todos inputText editingId editText filter].
  rewrite Ee. cbn [List.filter id].
  rewrite strict_eq_refl. cbn [negb].
  rewrite (filter_unmatched (fun todo => JS.strict_eq (id todo) (JS.Number_toString now))
             (todos s) Hno).
  reflexivity.
Qed.

Lemma add_then_delete_restores_witness :
  JS.trim (inputText (dispatch (ChangeInput (JS.lit "call mum")) initialState)) <> []
  /\ hasId (JS.Number_toString 1700000000000)
       (todos (dispatch (ChangeInput (JS.lit "call mum")) initialState)) = false
  /\ editingId (dispatch (ChangeInput (JS.lit "call mum")) initialState)
     <> Some (JS.Number_toString 1700000000000)
  /\ deleteTodo (JS.lit "1700000000000")
       (addTodo 1700000000000
          (dispatch (ChangeInput (JS.lit "call mum")) initialState))
     = initialState.
Proof.
  assert (JS.trim (inputText (dispatch (ChangeInput (JS.lit "call mum")) initialState))
          <> []) as Hfull by (vm_compute; discriminate).
  assert (editingId (dispatch (ChangeInput (JS.lit "call mum")) initialState)
          <> Some (JS.Number_toString 1700000000000)) as Hedit
    by (simpl; discriminate).
  split; [exact Hfull|]. split; [reflexivity|]. split; [exact Hedit|].
  exact (add_then_delete_restores 1700000000000
           (dispatch (ChangeInput (JS.lit "call mum")) initialState)
           Hfull eq_refl Hedit).
Defined.

Lemma filter_comm (p q : Todo -> bool) (l : list Todo) :
  List.filter p (List.filter q l) = List.filter q (List.filter p l).
Proof.
  induction l as [|x l IH]; simpl; [reflexivity|].
  destruct (q x) eqn:Eq, (p x) eqn:Ep; simpl;
    rewrite ?Eq, ?Ep, IH; reflexivity.
Qed.

(** X15. Checkbox presses and deletions commute: two toggles, two deletions,
    or a toggle and a deletion, on any ids, give the same state in either
    order. *)
Theorem toggle_delete_commute (i j : JS.jsstring) (s : State) :
  toggleTodo i (toggleTodo j s) = toggleTodo j (toggleTodo i s)
  /\ deleteTodo i (deleteTodo j s) = deleteTodo j (deleteTodo i s)
  /\ deleteTodo i (toggleTodo j s) = toggleTodo j (deleteTodo i s).
Proof.
  split; [|split].
  - unfold toggleTodo, setTodos. cbn [todos inputText editingId editText filter].
    f_equal. rewrite !map_map. apply map_ext. intros todo.
    destruct (JS.strict_eq (id todo) i) eqn:Ei,
             (JS.strict_eq (id todo) j) eqn:Ej;
      cbn [flipCompleted id]; rewrite ?Ei, ?Ej; reflexivity.
  - unfold deleteTodo, setEditText, setEditingId, setTodos.
    destruct (editingId s) as [e|];
      cbn [JS.strict_eq_nullable todos inputText editingId editText filter].
    + destruct (JS.strict_eq e i) eqn:Ei, (JS.strict_eq e j) eqn:Ej;
        cbn [JS.strict_eq_nullable todos inputText editingId editText filter];
        rewrite ?Ei, ?Ej;
        cbn [JS.strict_eq_nullable todos inputText editingId editText filter];
        f_equal; apply filter_comm.
    + f_equal. apply filter_comm.
  - unfold deleteTodo, toggleTodo, setEditText, setEditingId, setTodos.
    cbn [todos inputText editingId editText filter].
    assert (List.filter (fun todo => negb (JS.strict_eq (id todo) i))
              (List.map (fun todo => if JS.strict_eq (id todo) j
                                     then flipCompleted todo else todo) (todos s))
            = List.map (fun todo => if JS.strict_eq (id todo) j
                                    then flipCompleted todo else todo)
                (List.filter (fun todo => negb (JS.strict_eq (id todo) i)) (todos s)))
      as ->.
    { induction (todos s) as [|x l IH]; [reflexivity|].
      cbn [List.map List.filter].
      assert (id (if JS.strict_eq (id x) j then flipCompleted x else x) = id x) as ->
        by (destruct (JS.strict_eq (id x) j); reflexivity).
      destruct (negb (JS.strict_eq (id x) i)); cbn [List.map]; rewrite IH; reflexivity. }
    destruct (JS.strict_eq_nullable (editingId s) i); reflexivity.
Qed.

(** ** The edit cells in a session with distinct ids *)

Lemma clockedReachable_reachable (t : Z) (s : State) :
  clockedReachable t s -> reachable s.
Proof.
  induction 1 as [|t now s _ IH En _|t s e _ IH En _].
  - apply reachable_initial.
  - apply reachable_step; assumption.
  - apply reachable_step; assumption.
Qed.

Lemma clockedEditState_clocked : clockedReachable 1700000000001 clockedEditState.
Proof.
  unfold clockedEditState, twoAddsState.
  apply clocked_other; [|reflexivity|discriminate].
  apply clocked_other; [|reflexivity|discriminate].
  apply clocked_add with (t := 1700000000000%Z); [|reflexivity|lia].
  apply clocked_other; [|reflexivity|discriminate].
  apply clocked_add with (t := 4%Z); [|reflexivity|lia].
  apply clocked_other; [|reflexivity|discriminate].
  apply clocked_initial.
Qed.

(** X16. In a session whose clock reads strictly more at every Add press than
    at the one before (and more than 4 at the first), so that ids stay
    distinct and the rendered rows are the whole screen, the edit cells stay
    consistent with the list: an id held by [editingId] is the id of a task in
    [todos], and while [editingId] is [null] the draft is empty. *)
Theorem distinct_ids_session_edit_consistent (t : Z) (s : State) :
  clockedReachable t s ->
  (forall i, editingId s = Some i -> exists todo, In todo (todos s) /\ id todo = i)
  /\ (editingId s = None -> editText s = []).
Proof.
  intros Hc.
  pose proof (reachable_editConsistent s (clockedReachable_reachable t s Hc)) as H.
  unfold editConsistent in H. split.
  - intros i Hi. rewrite Hi in H. apply hasId_true_iff. exact H.
  - intros Hnone. rewrite Hnone in H. exact H.
Qed.

Lemma distinct_ids_session_edit_consistent_witness :
  clockedReachable 1700000000001 clockedEditState
  /\ editingId clockedEditState = Some (JS.lit "1")
  /\ (exists todo, In todo (todos clockedEditState) /\ id todo = JS.lit "1").
Proof.
  split; [exact clockedEditState_clocked|]. split; [reflexivity|].
  exact (proj1 (distinct_ids_session_edit_consistent 1700000000001 clockedEditState
                  clockedEditState_clocked) (JS.lit "1") eq_refl).
Defined.

(** X17. [deleteTodo] called with the id being edited returns, in one step,
    a state with no task of that id, [editingId] at [null] and an empty
    draft; [inputText] and [filter] stay. *)
Theorem deleteTodo_edited_cells (s : State) (i : JS.jsstring) :
  editingId s = Some i ->
  editingId (deleteTodo i s) = None
  /\ editText (deleteTodo i s) = []
  /\ (forall todo, In todo (todos (deleteTodo i s)) -> id todo <> i)
  /\ inputText (deleteTodo i s) = inputText s
  /\ filter (deleteTodo i s) = filter s.
Proof.
  intros Hi.
  assert (todos (deleteTodo i s)
          = List.filter (fun t => negb (JS.strict_eq (id t) i)) (todos s)) as E.
  { unfold deleteTodo. destruct (JS.strict_eq_nullable (editingId s) i); reflexivity. }
  split; [|split; [|split; [|split]]].
  - unfold deleteTodo. rewrite Hi. simpl. rewrite strict_eq_refl. reflexivity.
  - unfold deleteTodo. rewrite Hi. simpl. rewrite strict_eq_refl. reflexivity.
  - intros todo Hin. rewrite E in Hin. apply filter_In in Hin.
    destruct Hin as [_ H]. apply negb_true_iff in H.
    apply strict_eq_false_iff. assumption.
  - unfold deleteTodo. destruct (JS.strict_eq_nullable (editingId s) i); reflexivity.
  - unfold deleteTodo. destruct (JS.strict_eq_nullable (editingId s) i); reflexivity.
Qed.

Lemma deleteTodo_edited_cells_witness :
  editingId (editingWith (JS.lit "draft")) = Some (JS.lit "1")
  /\ editingId (deleteTodo (JS.lit "1") (editingWith (JS.lit "draft"))) = None
  /\ editText (deleteTodo (JS.lit "1") (editingWith (JS.lit "draft"))) = []
  /\ List.map id (todos (deleteTodo (JS.lit "1") (editingWith (JS.lit "draft"))))
     = [JS.lit "2"; JS.lit "3"; JS.lit "4"].
Proof.
  destruct (deleteTodo_edited_cells (editingWith (JS.lit "draft")) (JS.lit "1")
              eq_refl) as [He [Hd _]].
  split; [reflexivity|]. split; [exact He|]. split; [exact Hd|]. reflexivity.
Defined.
